(** * The Linux runner shell of the FruitNinja Flutter application

    A shallow embedding of [linux/my_application.cc]: the application
    constructor [my_application_new] and the handler of
    [GApplication::activate], [my_application_activate].

    The file is toolkit glue: every statement of the two functions is a call
    into GLib/GTK or into the Flutter Linux embedder.  The calls are modelled
    as operations on a heap of reference-counted GObject instances, and every
    operation also reports the call it stands for, so that both the final
    state of the widgets and the order of the calls can be stated. *)

From stdpp Require Import gmap strings list fin_maps.
From Stdlib Require Import ZArith.

Local Open Scope Z_scope.

(** ** GObject instances *)

(** The registered types the file mentions. *)
Inductive GType : Type :=
  | MY_TYPE_APPLICATION
  | GTK_TYPE_APPLICATION_WINDOW
  | GTK_TYPE_HEADER_BAR
  | FL_TYPE_DART_PROJECT
  | FL_TYPE_VIEW.

(** [GApplicationFlags] is a bit field (gio/gioenums.h). *)
Definition G_APPLICATION_FLAGS_NONE : Z := 0.
Definition G_APPLICATION_IS_SERVICE : Z := Z.shiftl 1 0.
Definition G_APPLICATION_IS_LAUNCHER : Z := Z.shiftl 1 1.
Definition G_APPLICATION_HANDLES_OPEN : Z := Z.shiftl 1 2.
Definition G_APPLICATION_HANDLES_COMMAND_LINE : Z := Z.shiftl 1 3.

(** Values handed to [g_object_new] as properties. *)
Inductive GValue : Type :=
  | VString (s : string)
  | VFlags (f : Z)
  | VObject (p : positive).

(** The part of a [GApplication] that the constructor configures. *)
Record GApplicationPriv : Type := mkApplication {
  application_id : option string;
  flags : Z
}.

(** A top-level window: owning application, title, default size, the widget
    installed as title bar, the content child, and whether it is shown.
    A default size of -1 means that none was set. *)
Record GtkWindowPriv : Type := mkWindow {
  window_application : option positive;
  window_title : option string;
  default_width : Z;
  default_height : Z;
  titlebar : option positive;
  child : option positive;
  window_visible : bool
}.

(** A header bar: its title, whether the window controls are shown,
    whether the widget itself is shown, and the window it is installed in
    as title bar, if any. *)
Record GtkHeaderBarPriv : Type := mkHeaderBar {
  header_title : option string;
  show_title_buttons : bool;
  header_visible : bool;
  header_window : option positive
}.

Inductive instance : Type :=
  | MyApplication (a : GApplicationPriv)
  | GtkApplicationWindow (w : GtkWindowPriv)
  | GtkHeaderBar (b : GtkHeaderBarPriv)
  | FlDartProject
  | FlView (project : option positive).

Record GObject : Type := mkObject {
  ref_count : nat;
  data : instance
}.

(** The heap of live objects, by address. *)
Abbreviation heap := (gmap positive GObject).

(** The object at an address, as an instance of one type. *)
Definition get_application (h : heap) (p : positive) : option GApplicationPriv :=
  match h !! p with
  | Some (mkObject _ (MyApplication a)) => Some a
  | _ => None
  end.

Definition get_window (h : heap) (p : positive) : option GtkWindowPriv :=
  match h !! p with
  | Some (mkObject _ (GtkApplicationWindow w)) => Some w
  | _ => None
  end.

Definition get_header_bar (h : heap) (p : positive) : option GtkHeaderBarPriv :=
  match h !! p with
  | Some (mkObject _ (GtkHeaderBar b)) => Some b
  | _ => None
  end.

(** ** Calls *)

(** One constructor per toolkit function the file calls; a constructor
    carries the arguments of the call and, for a function that returns an
    object, the address returned. *)
Inductive call : Type :=
  | call_g_object_new (t : GType) (props : list (string * GValue)) (ret : positive)
  | call_gtk_application_window_new (application ret : positive)
  | call_gtk_header_bar_new (ret : positive)
  | call_gtk_widget_show (widget : positive)
  | call_gtk_header_bar_set_title (bar : positive) (title : string)
  | call_gtk_header_bar_set_show_title_buttons (bar : positive) (setting : bool)
  | call_gtk_window_set_titlebar (window bar : positive)
  | call_gtk_window_set_title (window : positive) (title : string)
  | call_gtk_window_set_default_size (window : positive) (width height : Z)
  | call_fl_dart_project_new (ret : positive)
  | call_g_object_unref (object : positive).

(** ** The monad of toolkit code

    A computation takes the heap and gives its result, the new heap and the
    calls it made, oldest first. *)
Definition Gtk (A : Type) : Type := heap → A * heap * list call.

Definition ret {A} (a : A) : Gtk A := λ h, (a, h, []).

Definition bind {A B} (m : Gtk A) (f : A → Gtk B) : Gtk B :=
  λ h, let '(a, h1, l1) := m h in
       let '(b, h2, l2) := f a h1 in
       (b, h2, l1 ++ l2).

Declare Scope gtk_scope.
Delimit Scope gtk_scope with gtk.
Notation "x <- m ;; k" := (bind m (λ x, k))
  (at level 100, m at next level, k at level 200, only parsing) : gtk_scope.
Notation "m ;; k" := (bind m (λ _, k))
  (at level 100, k at level 200, only parsing) : gtk_scope.
Local Open Scope gtk_scope.

Definition result {A} (r : A * heap * list call) : A := r.1.1.
Definition final {A} (r : A * heap * list call) : heap := r.1.2.
Definition trace {A} (r : A * heap * list call) : list call := r.2.

(** ** The toolkit *)

(** A new instance lives at an address no live object has, with one
    reference, held by the caller. *)
Definition new_object (d : instance) (h : heap) : positive * heap :=
  let p := fresh (dom h) in (p, <[p := mkObject 1 d]> h).

(** Change the instance data of the object at [p]; nothing happens when no
    object lives there. *)
Definition update (f : instance → instance) (p : positive) (h : heap) : heap :=
  alter (λ o, mkObject (ref_count o) (f (data o))) p h.

(** Instance data of a type right after [instance_init]. *)
Definition instance_init (t : GType) : instance :=
  match t with
  | MY_TYPE_APPLICATION => MyApplication (mkApplication None G_APPLICATION_FLAGS_NONE)
  | GTK_TYPE_APPLICATION_WINDOW =>
      GtkApplicationWindow (mkWindow None None (-1) (-1) None None false)
  | GTK_TYPE_HEADER_BAR => GtkHeaderBar (mkHeaderBar None false false None)
  | FL_TYPE_DART_PROJECT => FlDartProject
  | FL_TYPE_VIEW => FlView None
  end.

(** [set_property]: a property the instance does not have, or a value of the
    wrong type, leaves the instance as it is. *)
Definition set_property (d : instance) (name : string) (v : GValue) : instance :=
  match d, v with
  | MyApplication a, VString s =>
      if String.eqb name "application-id"
      then MyApplication (mkApplication (Some s) (flags a)) else d
  | MyApplication a, VFlags f =>
      if String.eqb name "flags"
      then MyApplication (mkApplication (application_id a) f) else d
  | GtkApplicationWindow w, VObject p =>
      if String.eqb name "application"
      then GtkApplicationWindow
             (mkWindow (Some p) (window_title w) (default_width w)
                (default_height w) (titlebar w) (child w) (window_visible w))
      else d
  | FlView _, VObject p =>
      if String.eqb name "project" then FlView (Some p) else d
  | _, _ => d
  end.

Definition set_properties (d : instance) (props : list (string * GValue)) : instance :=
  foldl (λ d' nv, set_property d' nv.1 nv.2) d props.

Definition g_object_new (t : GType) (props : list (string * GValue)) : Gtk positive :=
  λ h, let '(p, h') := new_object (set_properties (instance_init t) props) h in
       (p, h', [call_g_object_new t props p]).

(** Drops one reference; the object is finalised, and leaves the heap, when
    that was the last one. *)
Definition g_object_unref (object : positive) : Gtk unit :=
  λ h, (tt,
        match h !! object with
        | Some o =>
            if (ref_count o <=? 1)%nat then delete object h
            else <[object := mkObject (Nat.pred (ref_count o)) (data o)]> h
        | None => h
        end,
        [call_g_object_unref object]).

(** One more reference on the object at [p]. *)
Definition g_object_ref (p : positive) (h : heap) : heap :=
  alter (λ o, mkObject (S (ref_count o)) (data o)) p h.

(** The new window belongs to [application] and holds a reference on it.
    The function is modelled for the argument the handler passes, the
    application that is being activated. *)
Definition gtk_application_window_new (application : positive) : Gtk positive :=
  λ h, let '(p, h') :=
         new_object (set_property (instance_init GTK_TYPE_APPLICATION_WINDOW)
                       "application" (VObject application))
           (g_object_ref application h) in
       (p, h', [call_gtk_application_window_new application p]).

Definition gtk_header_bar_new : Gtk positive :=
  λ h, let '(p, h') := new_object (instance_init GTK_TYPE_HEADER_BAR) h in
       (p, h', [call_gtk_header_bar_new p]).

(** Flags a widget to be displayed. *)
Definition gtk_widget_show (widget : positive) : Gtk unit :=
  λ h, (tt,
        update (λ d, match d with
                     | GtkApplicationWindow w =>
                         GtkApplicationWindow
                           (mkWindow (window_application w) (window_title w)
                              (default_width w) (default_height w)
                              (titlebar w) (child w) true)
                     | GtkHeaderBar b =>
                         GtkHeaderBar
                           (mkHeaderBar (header_title b) (show_title_buttons b) true
                              (header_window b))
                     | _ => d
                     end) widget h,
        [call_gtk_widget_show widget]).

(** The title fields alone. *)
Definition window_with_title (title : string) (d : instance) : instance :=
  match d with
  | GtkApplicationWindow w =>
      GtkApplicationWindow
        (mkWindow (window_application w) (Some title)
           (default_width w) (default_height w)
           (titlebar w) (child w) (window_visible w))
  | _ => d
  end.

Definition header_bar_with_title (title : string) (d : instance) : instance :=
  match d with
  | GtkHeaderBar b =>
      GtkHeaderBar
        (mkHeaderBar (Some title) (show_title_buttons b) (header_visible b)
           (header_window b))
  | _ => d
  end.

(** A window and the header bar installed as its title bar have one title
    (GTK 3): [gtk_window_set_title] also sets the title of the header bar,
    and a header bar whose title changes hands it to its window. *)
Definition window_set_title (window : positive) (title : string) (h : heap) : heap :=
  let h1 := update (window_with_title title) window h in
  match get_window h1 window ≫= titlebar with
  | Some bar => update (header_bar_with_title title) bar h1
  | None => h1
  end.

Definition header_bar_set_title (bar : positive) (title : string) (h : heap) : heap :=
  let h1 := update (header_bar_with_title title) bar h in
  match get_header_bar h1 bar ≫= header_window with
  | Some window => update (window_with_title title) window h1
  | None => h1
  end.

Definition gtk_header_bar_set_title (bar : positive) (title : string) : Gtk unit :=
  λ h, (tt, header_bar_set_title bar title h,
        [call_gtk_header_bar_set_title bar title]).

Definition gtk_header_bar_set_show_title_buttons (bar : positive) (setting : bool)
  : Gtk unit :=
  λ h, (tt,
        update (λ d, match d with
                     | GtkHeaderBar b =>
                         GtkHeaderBar
                           (mkHeaderBar (header_title b) setting (header_visible b)
                              (header_window b))
                     | _ => d
                     end) bar h,
        [call_gtk_header_bar_set_show_title_buttons bar setting]).

Definition header_bar_with_window (window : option positive) (d : instance)
  : instance :=
  match d with
  | GtkHeaderBar b =>
      GtkHeaderBar
        (mkHeaderBar (header_title b) (show_title_buttons b) (header_visible b)
           window)
  | _ => d
  end.

(** Installs [bar] as the title bar of [window]: a title bar installed
    before is taken out; [bar] becomes the title bar; and when [bar] is a
    header bar that has a title, the window takes that title. *)
Definition gtk_window_set_titlebar (window bar : positive) : Gtk unit :=
  λ h, (tt,
        match get_window h window with
        | Some win =>
            let h1 := match titlebar win with
                      | Some old => update (header_bar_with_window None) old h
                      | None => h
                      end in
            let h2 :=
              update (λ d, match d with
                           | GtkApplicationWindow w =>
                               GtkApplicationWindow
                                 (mkWindow (window_application w) (window_title w)
                                    (default_width w) (default_height w)
                                    (Some bar) (child w) (window_visible w))
                           | _ => d
                           end) window h1 in
            let h3 := update (header_bar_with_window (Some window)) bar h2 in
            match get_header_bar h3 bar ≫= header_title with
            | Some title => window_set_title window title h3
            | None => h3
            end
        | None => h
        end,
        [call_gtk_window_set_titlebar window bar]).

Definition gtk_window_set_title (window : positive) (title : string) : Gtk unit :=
  λ h, (tt, window_set_title window title h,
        [call_gtk_window_set_title window title]).

Definition gtk_window_set_default_size (window : positive) (width height : Z)
  : Gtk unit :=
  λ h, (tt,
        update (λ d, match d with
                     | GtkApplicationWindow w =>
                         GtkApplicationWindow
                           (mkWindow (window_application w) (window_title w)
                              width height
                              (titlebar w) (child w) (window_visible w))
                     | _ => d
                     end) window h,
        [call_gtk_window_set_default_size window width height]).

Definition fl_dart_project_new : Gtk positive :=
  λ h, let '(p, h') := new_object (instance_init FL_TYPE_DART_PROJECT) h in
       (p, h', [call_fl_dart_project_new p]).

(** [g_autoptr(T) x = init; body]: the reference bound to [x] is dropped when
    the enclosing block is left. *)
Definition g_autoptr {A} (init : Gtk positive) (body : positive → Gtk A) : Gtk A :=
  x <- init ;;
  r <- body x ;;
  g_object_unref x ;;
  ret r.

(** The checked casts give back the pointer they are given. *)
Definition MY_APPLICATION (p : positive) : positive := p.
Definition GTK_APPLICATION (p : positive) : positive := p.
Definition GTK_WINDOW (p : positive) : positive := p.
Definition GTK_WIDGET (p : positive) : positive := p.
Definition GTK_HEADER_BAR (p : positive) : positive := p.

Definition TRUE : bool := true.

(** ** linux/my_application.cc *)

Section my_application.

(** Both names are macros that the build system defines on the compiler's
    command line. *)
Variable APPLICATION_ID : string.
Variable APPLICATION_NAME : string.

Definition my_application_get_type : GType := MY_TYPE_APPLICATION.

Definition my_application_new : Gtk positive :=
  p <- g_object_new my_application_get_type
         [("application-id"%string, VString APPLICATION_ID);
          ("flags"%string, VFlags G_APPLICATION_HANDLES_OPEN)] ;;
  ret (MY_APPLICATION p).

(** Implements [GApplication::activate]. *)
Definition my_application_activate (application : positive) : Gtk unit :=
  let self := MY_APPLICATION application in
  window <- (w <- gtk_application_window_new (GTK_APPLICATION application) ;;
             ret (GTK_WINDOW w)) ;;
  header_bar <- gtk_header_bar_new ;;
  gtk_widget_show header_bar ;;
  gtk_header_bar_set_title (GTK_HEADER_BAR header_bar) APPLICATION_NAME ;;
  gtk_header_bar_set_show_title_buttons (GTK_HEADER_BAR header_bar) TRUE ;;
  gtk_window_set_titlebar window header_bar ;;
  gtk_window_set_title window "FruitNinja" ;;
  gtk_window_set_default_size window 1280 720 ;;
  gtk_widget_show (GTK_WIDGET window) ;;
  g_autoptr fl_dart_project_new (λ project, ret tt).

End my_application.

(** ** Observations *)

Definition is_window (h : heap) (p : positive) : bool :=
  match get_window h p with Some _ => true | None => false end.

Definition is_dart_project (h : heap) (p : positive) : bool :=
  match h !! p with
  | Some (mkObject _ FlDartProject) => true
  | _ => false
  end.

(** The project that the content of window [w] runs: the window's child is a
    Flutter view, and the view was made for that project. *)
Definition embedded_project (h : heap) (w : positive) : option positive :=
  match get_window h w with
  | Some win =>
      match child win with
      | Some v =>
          match h !! v with
          | Some (mkObject _ (FlView q)) => q
          | _ => None
          end
      | None => None
      end
  | None => None
  end.

(** The toolkit's getters, [None] when the object is not of the kind. *)
Definition gtk_window_get_title (h : heap) (w : positive) : option string :=
  get_window h w ≫= window_title.

Definition gtk_window_get_default_size (h : heap) (w : positive) : option (Z * Z) :=
  (λ win, (default_width win, default_height win)) <$> get_window h w.

Definition gtk_window_get_titlebar (h : heap) (w : positive) : option positive :=
  get_window h w ≫= titlebar.

Definition gtk_window_get_child (h : heap) (w : positive) : option (option positive) :=
  child <$> get_window h w.



Definition gtk_widget_get_visible (h : heap) (p : positive) : bool :=
  match h !! p with
  | Some (mkObject _ (GtkApplicationWindow w)) => window_visible w
  | Some (mkObject _ (GtkHeaderBar b)) => header_visible b
  | _ => false
  end.

(** An application with this flag handles open-with-arguments invocations. *)
Definition handles_open (f : Z) : bool :=
  negb (Z.land f G_APPLICATION_HANDLES_OPEN =? 0).

(** The objects a sequence of calls created, by kind, oldest first. *)
Definition windows_created (l : list call) : list positive :=
  omap (λ c, match c with
             | call_gtk_application_window_new _ w => Some w
             | _ => None
             end) l.

Definition header_bars_created (l : list call) : list positive :=
  omap (λ c, match c with call_gtk_header_bar_new b => Some b | _ => None end) l.

Definition projects_created (l : list call) : list positive :=
  omap (λ c, match c with call_fl_dart_project_new p => Some p | _ => None end) l.

(** The calls that hand object [p] to the toolkit as an argument. *)
Definition takes (p : positive) (c : call) : bool :=
  match c with
  | call_g_object_new _ props _ =>
      existsb (λ nv, match nv.2 with
                     | VObject q => bool_decide (q = p)
                     | _ => false
                     end) props
  | call_gtk_application_window_new a _ => bool_decide (a = p)
  | call_gtk_header_bar_new _ => false
  | call_gtk_widget_show w => bool_decide (w = p)
  | call_gtk_header_bar_set_title b _ => bool_decide (b = p)
  | call_gtk_header_bar_set_show_title_buttons b _ => bool_decide (b = p)
  | call_gtk_window_set_titlebar w b => bool_decide (w = p) || bool_decide (b = p)
  | call_gtk_window_set_title w _ => bool_decide (w = p)
  | call_gtk_window_set_default_size w _ _ => bool_decide (w = p)
  | call_fl_dart_project_new _ => false
  | call_g_object_unref o => bool_decide (o = p)
  end.

(** The window and the header bar as the activation handler leaves them. *)
Definition shown_window (application bar : positive) : GObject :=
  mkObject 1 (GtkApplicationWindow
                (mkWindow (Some application) (Some "FruitNinja"%string) 1280 720
                   (Some bar) None true)).

Definition shown_header_bar (window : positive) : GObject :=
  mkObject 1 (GtkHeaderBar
                (mkHeaderBar (Some "FruitNinja"%string) true true (Some window))).

(** The application a window belongs to. *)
Definition gtk_window_get_application (h : heap) (w : positive)
  : option positive :=
  get_window h w ≫= window_application.

(** The application activated [n] times in a row: GApplication emits
    "activate" once for each launch of the program that reaches the running
    instance, and runs the handler each time. *)
Fixpoint activations (APPLICATION_NAME : string) (application : positive)
    (n : nat) : Gtk unit :=
  match n with
  | O => ret tt
  | S n' =>
      my_application_activate APPLICATION_NAME application ;;
      activations APPLICATION_NAME application n'
  end.

(** * Proofs *)

(** ** The heap under allocation and update *)

Lemma fresh_lookup (h : heap) : h !! fresh (dom h) = None.
Proof. apply not_elem_of_dom, is_fresh. Qed.

Lemma update_insert_eq f p o (h : heap) :
  update f p (<[p := o]> h) = <[p := mkObject (ref_count o) (f (data o))]> h.
Proof. unfold update. by rewrite alter_insert_eq. Qed.

Lemma update_insert_ne f p q o (h : heap) :
  p ≠ q → update f p (<[q := o]> h) = <[q := o]> (update f p h).
Proof. intros Hne. unfold update. by rewrite alter_insert_ne. Qed.

(** A reference more changes neither which addresses are live nor what the
    objects are. *)
Lemma g_object_ref_dom p (h : heap) : dom (g_object_ref p h) = dom h.
Proof. unfold g_object_ref. apply dom_alter_L. Qed.

Lemma g_object_ref_lookup_ne p q (h : heap) :
  p ≠ q → g_object_ref p h !! q = h !! q.
Proof. intros Hne. unfold g_object_ref. by rewrite lookup_alter_ne. Qed.

Lemma g_object_ref_lookup_eq p (h : heap) :
  g_object_ref p h !! p =
    (λ o, mkObject (S (ref_count o)) (data o)) <$> h !! p.
Proof. unfold g_object_ref. by rewrite lookup_alter_eq. Qed.

Lemma g_object_ref_data p q (h : heap) :
  data <$> g_object_ref p h !! q = data <$> h !! q.
Proof.
  destruct (decide (p = q)) as [-> | Hne].
  - rewrite g_object_ref_lookup_eq. by destruct (h !! q).
  - by rewrite g_object_ref_lookup_ne.
Qed.

Lemma g_object_ref_None p q (h : heap) :
  g_object_ref p h !! q = None ↔ h !! q = None.
Proof. by rewrite <- !not_elem_of_dom, g_object_ref_dom. Qed.

(** Whatever the body of the block does, the last call of a [g_autoptr]
    block drops the reference the block acquired. *)
Lemma g_autoptr_releases {A} (init : Gtk positive) (body : positive → Gtk A)
    (h : heap) :
  last (trace (g_autoptr init body h)) =
    Some (call_g_object_unref (result (init h))).
Proof.
  unfold g_autoptr, bind, ret, g_object_unref, trace, result.
  destruct (init h) as [[x h1] l1]. cbn [fst snd].
  destruct (body x h1) as [[a h2] l2]. cbn [fst snd].
  rewrite !app_assoc, app_nil_r. apply last_snoc.
Qed.

(** ** A window and a header bar on the heap

    The heaps the handler goes through hold a window at [w] and, from the
    second call on, a header bar at [b], both with one reference. *)

Section window_and_bar.

Variable h0 : heap.
Variables w b : positive.
Hypothesis Hwb : w ≠ b.

Local Abbreviation on_heap W B :=
  (<[b := mkObject 1 (GtkHeaderBar B)]>
     (<[w := mkObject 1 (GtkApplicationWindow W)]> h0)).

Lemma on_heap_get_window W B : get_window (on_heap W B) w = Some W.
Proof. unfold get_window. by rewrite lookup_insert_ne, lookup_insert_eq. Qed.

Lemma on_heap_get_header_bar W B : get_header_bar (on_heap W B) b = Some B.
Proof. unfold get_header_bar. by rewrite lookup_insert_eq. Qed.

Lemma on_heap_update_window f W B :
  update f w (on_heap W B) =
    <[b := mkObject 1 (GtkHeaderBar B)]>
      (<[w := mkObject 1 (f (GtkApplicationWindow W))]> h0).
Proof. by rewrite update_insert_ne, update_insert_eq. Qed.

Lemma on_heap_update_header_bar f W B :
  update f b (on_heap W B) =
    <[b := mkObject 1 (f (GtkHeaderBar B))]>
      (<[w := mkObject 1 (GtkApplicationWindow W)]> h0).
Proof. by rewrite update_insert_eq. Qed.

(** A header bar that is in no window keeps its new title to itself. *)
Lemma on_heap_header_bar_set_title title W B :
  header_window B = None →
  header_bar_set_title b title (on_heap W B) =
    on_heap W (mkHeaderBar (Some title) (show_title_buttons B)
                 (header_visible B) None).
Proof.
  intros HB. unfold header_bar_set_title. cbv zeta.
  rewrite on_heap_update_header_bar. cbn [header_bar_with_title].
  rewrite on_heap_get_header_bar. cbn. by rewrite HB.
Qed.

(** The title of a window goes to the header bar that is its title bar. *)
Lemma on_heap_window_set_title title W B :
  titlebar W = Some b →
  window_set_title w title (on_heap W B) =
    on_heap (mkWindow (window_application W) (Some title) (default_width W)
               (default_height W) (titlebar W) (child W) (window_visible W))
            (mkHeaderBar (Some title) (show_title_buttons B) (header_visible B)
               (header_window B)).
Proof.
  intros HW. unfold window_set_title. cbv zeta.
  rewrite on_heap_update_window. cbn [window_with_title].
  rewrite on_heap_get_window. cbn. rewrite HW.
  by rewrite on_heap_update_header_bar.
Qed.

(** Installing a titled header bar in a window that has no title bar: the
    two are linked, and the window takes the title of the header bar. *)
Lemma on_heap_set_titlebar title W B :
  titlebar W = None → header_title B = Some title →
  gtk_window_set_titlebar w b (on_heap W B) =
    (tt,
     on_heap (mkWindow (window_application W) (Some title) (default_width W)
                (default_height W) (Some b) (child W) (window_visible W))
             (mkHeaderBar (Some title) (show_title_buttons B) (header_visible B)
                (Some w)),
     [call_gtk_window_set_titlebar w b]).
Proof.
  intros HW HB. unfold gtk_window_set_titlebar.
  rewrite on_heap_get_window, HW.
  rewrite on_heap_update_window. cbv zeta.
  rewrite on_heap_update_header_bar. cbn [header_bar_with_window].
  rewrite on_heap_get_header_bar. cbn [mbind option_bind header_title].
  rewrite HB. by rewrite on_heap_window_set_title.
Qed.

End window_and_bar.

(** ** One activation, start to end *)

Section activation.

Variable APPLICATION_NAME : string.
Variable application : positive.
Variable h : heap.

Lemma activate_run :
  let w := fresh (dom h) in
  let b := fresh ({[w]} ∪ dom h) in
  let p := fresh ({[b]} ∪ ({[w]} ∪ dom h)) in
  my_application_activate APPLICATION_NAME application h =
    (tt, <[b := shown_header_bar w]>
           (<[w := shown_window application b]> (g_object_ref application h)),
     [call_gtk_application_window_new application w;
      call_gtk_header_bar_new b;
      call_gtk_widget_show b;
      call_gtk_header_bar_set_title b APPLICATION_NAME;
      call_gtk_header_bar_set_show_title_buttons b true;
      call_gtk_window_set_titlebar w b;
      call_gtk_window_set_title w "FruitNinja";
      call_gtk_window_set_default_size w 1280 720;
      call_gtk_widget_show w;
      call_fl_dart_project_new p;
      call_g_object_unref p]).
Proof.
  intros w b p.
  assert (Hwb : w ≠ b).
  { intros Heq. apply (is_fresh ({[w]} ∪ dom h)). fold b. rewrite <- Heq. set_solver. }
  assert (Hbw : b ≠ w) by congruence.
  unfold my_application_activate, g_autoptr, bind, ret,
    gtk_application_window_new, gtk_header_bar_new, fl_dart_project_new,
    gtk_widget_show, gtk_header_bar_set_title,
    gtk_header_bar_set_show_title_buttons,
    gtk_window_set_title, gtk_window_set_default_size, g_object_unref,
    new_object, MY_APPLICATION, GTK_APPLICATION, GTK_WINDOW, GTK_WIDGET,
    GTK_HEADER_BAR, TRUE.
  cbv beta iota zeta delta [instance_init set_property String.eqb Ascii.eqb Bool.eqb].
  rewrite g_object_ref_dom. fold w.
  set (h0 := g_object_ref application h).
  rewrite !(dom_insert_L h0 w). subst h0. rewrite g_object_ref_dom. fold b.
  set (h0 := g_object_ref application h).
  cbn [window_application window_title default_width default_height titlebar
       child window_visible].
  repeat first
    [ rewrite (on_heap_update_header_bar h0 w b) by exact Hwb
    | rewrite (on_heap_update_window h0 w b) by exact Hwb
    | rewrite (on_heap_header_bar_set_title h0 w b) by done
    | rewrite (on_heap_window_set_title h0 w b) by done
    | erewrite (on_heap_set_titlebar h0 w b) by done
    | progress cbn [ref_count data window_application window_title default_width
       default_height titlebar child window_visible header_title
       show_title_buttons header_visible header_window] ].
  rewrite !dom_insert_L. subst h0. rewrite g_object_ref_dom. fold p.
  rewrite lookup_insert_eq. cbn [ref_count Nat.leb].
  rewrite delete_insert_id; [reflexivity|].
  apply not_elem_of_dom. rewrite !dom_insert_L, g_object_ref_dom. apply is_fresh.
Qed.

End activation.

(** The same run, with what the proofs below need to know about the three
    addresses. *)
Lemma activate_spec APPLICATION_NAME application (h : heap) :
  ∃ w b p : positive,
    h !! w = None ∧ h !! b = None ∧ h !! p = None ∧
    w ≠ b ∧ p ≠ w ∧ p ≠ b ∧
    my_application_activate APPLICATION_NAME application h =
      (tt, <[b := shown_header_bar w]>
             (<[w := shown_window application b]>
                (g_object_ref application h)),
       [call_gtk_application_window_new application w;
        call_gtk_header_bar_new b;
        call_gtk_widget_show b;
        call_gtk_header_bar_set_title b APPLICATION_NAME;
        call_gtk_header_bar_set_show_title_buttons b true;
        call_gtk_window_set_titlebar w b;
        call_gtk_window_set_title w "FruitNinja";
        call_gtk_window_set_default_size w 1280 720;
        call_gtk_widget_show w;
        call_fl_dart_project_new p;
        call_g_object_unref p]).
Proof.
  pose proof (activate_run APPLICATION_NAME application h) as Hrun.
  cbv zeta in Hrun.
  set (w := fresh (dom h)) in *.
  set (b := fresh ({[w]} ∪ dom h)) in *.
  set (p := fresh ({[b]} ∪ ({[w]} ∪ dom h))) in *.
  pose proof (is_fresh (dom h)) as Hw. fold w in Hw.
  pose proof (is_fresh ({[w]} ∪ dom h)) as Hb. fold b in Hb.
  pose proof (is_fresh ({[b]} ∪ ({[w]} ∪ dom h))) as Hp. fold p in Hp.
  exists w, b, p. rewrite <- !not_elem_of_dom.
  repeat split; [set_solver.. | exact Hrun].
Qed.

(** Lookups in the heap an activation leaves. *)
Lemma activated_lookup_window (h : heap) w b W B :
  w ≠ b → (<[b := B]> (<[w := W]> h)) !! w = Some W.
Proof. intros Hne. by simplify_map_eq. Qed.

Lemma activated_lookup_bar (h : heap) (w b : positive) W B :
  (<[b := B]> (<[w := W]> h)) !! b = Some B.
Proof. by simplify_map_eq. Qed.

Lemma activated_lookup_other (h : heap) w b q W B :
  q ≠ w → q ≠ b → (<[b := B]> (<[w := W]> h)) !! q = h !! q.
Proof. intros Hw Hb. by simplify_map_eq. Qed.

(** Two objects at free addresses make the heap two objects larger. *)
Lemma activated_size (h : heap) w b W B :
  h !! w = None → h !! b = None → w ≠ b →
  size (<[b := B]> (<[w := W]> h)) = S (S (size h)).
Proof.
  intros Hw Hb Hwb.
  rewrite map_size_insert_None by (by rewrite lookup_insert_ne).
  by rewrite map_size_insert_None.
Qed.

(** What an object that was on the heap before the handler is afterwards:
    the same data, at the same address. *)
Lemma activated_lookup_old (h : heap) application w b q W B :
  h !! w = None → h !! b = None → is_Some (h !! q) →
  data <$> (<[b := B]> (<[w := W]> (g_object_ref application h))) !! q =
    data <$> h !! q.
Proof.
  intros Hw Hb Hq.
  rewrite activated_lookup_other.
  - apply g_object_ref_data.
  - intros ->. rewrite Hw in Hq. by destruct Hq.
  - intros ->. rewrite Hb in Hq. by destruct Hq.
Qed.

(** The getters read the data of an object, not its reference count. *)
Lemma same_data_get_window (h1 h2 : heap) q :
  data <$> h1 !! q = data <$> h2 !! q → get_window h1 q = get_window h2 q.
Proof.
  unfold get_window.
  destruct (h1 !! q) as [[? ?]|], (h2 !! q) as [[? ?]|]; cbn;
    intros [=]; by subst.
Qed.

Lemma same_data_get_header_bar (h1 h2 : heap) q :
  data <$> h1 !! q = data <$> h2 !! q → get_header_bar h1 q = get_header_bar h2 q.
Proof.
  unfold get_header_bar.
  destruct (h1 !! q) as [[? ?]|], (h2 !! q) as [[? ?]|]; cbn;
    intros [=]; by subst.
Qed.

Lemma same_data_get_application (h1 h2 : heap) q :
  data <$> h1 !! q = data <$> h2 !! q → get_application h1 q = get_application h2 q.
Proof.
  unfold get_application.
  destruct (h1 !! q) as [[? ?]|], (h2 !! q) as [[? ?]|]; cbn;
    intros [=]; by subst.
Qed.

Lemma same_data_is_dart_project (h1 h2 : heap) q :
  data <$> h1 !! q = data <$> h2 !! q → is_dart_project h1 q = is_dart_project h2 q.
Proof.
  unfold is_dart_project.
  destruct (h1 !! q) as [[? ?]|], (h2 !! q) as [[? ?]|]; cbn;
    intros [=]; by subst.
Qed.

Lemma g_object_ref_size p (h : heap) : size (g_object_ref p h) = size h.
Proof. by rewrite <- !size_dom, g_object_ref_dom. Qed.

(** ** The application constructor *)

(** C6. [my_application_new] has no parameter.  It returns the address of an
    instance that did not exist before the call, whose application
    identifier is [APPLICATION_ID] and whose flags are
    [G_APPLICATION_HANDLES_OPEN], the flag of an application that handles
    open-with-arguments invocations; no other object changes. *)
Theorem my_application_new_configured APPLICATION_ID (h : heap) :
  let r := my_application_new APPLICATION_ID h in
  h !! result r = None ∧
  (∃ a, get_application (final r) (result r) = Some a ∧
        application_id a = Some APPLICATION_ID ∧
        flags a = G_APPLICATION_HANDLES_OPEN ∧
        handles_open (flags a) = true) ∧
  (∀ q, q ≠ result r → final r !! q = h !! q) ∧
  trace r =
    [call_g_object_new MY_TYPE_APPLICATION
       [("application-id"%string, VString APPLICATION_ID);
        ("flags"%string, VFlags G_APPLICATION_HANDLES_OPEN)]
       (result r)].
Proof.
  cbv zeta. unfold my_application_new, bind, g_object_new, new_object, ret,
    result, final, trace, MY_APPLICATION. cbn [fst snd app].
  split; [apply fresh_lookup|].
  split.
  - eexists. unfold get_application. rewrite lookup_insert_eq.
    split; [reflexivity|]. by vm_compute.
  - split; [|reflexivity].
    intros q Hq. by rewrite lookup_insert_ne.
Qed.

(** ** The activation handler *)

Section handler.

Variable APPLICATION_NAME : string.
Variable application : positive.
Variable h : heap.

Let r := my_application_activate APPLICATION_NAME application h.


(** C3. After the handler, the title of the one window it created is
    "FruitNinja". *)
Theorem activate_window_title :
  ∃ window,
    windows_created (trace r) = [window] ∧
    gtk_window_get_title (final r) window = Some "FruitNinja"%string.
Proof.
  destruct (activate_spec APPLICATION_NAME application h)
    as (w & b & p & _ & _ & _ & Hwb & _ & _ & Hrun).
  exists w. subst r. rewrite Hrun. split; [reflexivity|].
  unfold gtk_window_get_title, get_window, final. cbn [fst snd].
  by rewrite activated_lookup_window.
Qed.

(** C4. After the handler, the default size of the window is 1280 x 720, and
    the call that sets it comes before the call that shows the window. *)
Theorem activate_default_size :
  ∃ window,
    windows_created (trace r) = [window] ∧
    gtk_window_get_default_size (final r) window = Some (1280, 720) ∧
    ∃ before after,
      trace r = before ++ call_gtk_widget_show window :: after ∧
      call_gtk_window_set_default_size window 1280 720 ∈ before ∧
      call_gtk_widget_show window ∉ before.
Proof.
  destruct (activate_spec APPLICATION_NAME application h)
    as (w & b & p & _ & _ & _ & Hwb & _ & _ & Hrun).
  exists w. subst r. rewrite Hrun. split; [reflexivity|]. split.
  - unfold gtk_window_get_default_size, get_window, final. cbn [fst snd].
    by rewrite activated_lookup_window.
  - eexists [_; _; _; _; _; _; _; _], _. cbn [trace snd].
    split; [reflexivity|]. split.
    + set_solver.
    + intros Hin. repeat (apply elem_of_cons in Hin as [Heq | Hin];
        [discriminate Heq || (injection Heq as Heq; by apply Hwb) |]).
      by apply elem_of_nil in Hin.
Qed.


(** C7. One invocation of the handler creates exactly one top-level window:
    it calls the window constructor once, and the windows of the heap it
    leaves are those of the heap it started from and one more, which was
    not an object before. *)
Theorem activate_one_window :
  length (windows_created (trace r)) = 1%nat ∧
  ∃ window,
    windows_created (trace r) = [window] ∧
    h !! window = None ∧
    ∀ q, is_window (final r) q = true ↔ q = window ∨ is_window h q = true.
Proof.
  destruct (activate_spec APPLICATION_NAME application h)
    as (w & b & p & Hw & Hb & _ & Hwb & _ & _ & Hrun).
  subst r. rewrite Hrun. split; [reflexivity|].
  exists w. split; [reflexivity|]. split; [exact Hw|].
  intros q. unfold is_window, final. cbn [fst snd].
  destruct (decide (q = w)) as [-> | Hqw].
  - unfold get_window at 1. rewrite activated_lookup_window by done. cbn. tauto.
  - destruct (decide (q = b)) as [-> | Hqb].
    + unfold get_window. rewrite activated_lookup_bar, Hb. cbn.
      split; [discriminate|].
      intros [? | ?]; [contradiction | discriminate].
    + rewrite (same_data_get_window _ h q); [tauto|].
      rewrite activated_lookup_other by done. apply g_object_ref_data.
Qed.

(** C8. When the handler returns, the window it created is on the heap, as
    a window, and it is shown; the call that shows it is one of the calls
    the handler made. *)
Theorem activate_window_shown :
  ∃ window,
    windows_created (trace r) = [window] ∧
    gtk_widget_get_visible (final r) window = true ∧
    call_gtk_widget_show window ∈ trace r ∧
    is_window (final r) window = true ∧
    (window_visible <$> get_window (final r) window) = Some true.
Proof.
  destruct (activate_spec APPLICATION_NAME application h)
    as (w & b & p & _ & _ & _ & Hwb & _ & _ & Hrun).
  exists w. subst r. rewrite Hrun.
  unfold gtk_widget_get_visible, is_window, get_window, final.
  cbn [fst snd trace].
  rewrite activated_lookup_window by done.
  repeat split. set_solver.
Qed.

(** C9. The handler has one path from entry to exit.  On it, the Dart
    project it creates is dropped by the last call before the return; the
    project is no longer on the heap afterwards, and every Dart project on
    the heap afterwards was on it before. *)
Theorem activate_project_released :
  ∃ project,
    projects_created (trace r) = [project] ∧
    h !! project = None ∧
    last (trace r) = Some (call_g_object_unref project) ∧
    final r !! project = None ∧
    ∀ q, is_dart_project (final r) q = true → is_dart_project h q = true.
Proof.
  destruct (activate_spec APPLICATION_NAME application h)
    as (w & b & p & Hw & Hb & Hp & Hwb & Hpw & Hpb & Hrun).
  exists p. subst r. rewrite Hrun.
  split; [reflexivity|]. split; [exact Hp|]. split; [reflexivity|].
  unfold final. cbn [fst snd]. split.
  - rewrite activated_lookup_other by done. by apply g_object_ref_None.
  - intros q.
    destruct (decide (q = w)) as [-> | Hqw];
      [unfold is_dart_project; rewrite activated_lookup_window by done;
       discriminate|].
    destruct (decide (q = b)) as [-> | Hqb];
      [unfold is_dart_project; rewrite activated_lookup_bar; discriminate|].
    rewrite (same_data_is_dart_project _ h q); [done|].
    rewrite activated_lookup_other by done. apply g_object_ref_data.
Qed.

(** What C1 asks for does not happen: when the handler returns, the window
    it created has no child, hence no Flutter view and no embedded project,
    and the project it created is gone. *)
Lemma activate_window_left_empty :
  ∃ window project,
    windows_created (trace r) = [window] ∧
    projects_created (trace r) = [project] ∧
    gtk_window_get_child (final r) window = Some None ∧
    embedded_project (final r) window = None ∧
    final r !! project = None.
Proof.
  destruct (activate_spec APPLICATION_NAME application h)
    as (w & b & p & _ & _ & Hp & Hwb & Hpw & Hpb & Hrun).
  exists w, p. subst r. rewrite Hrun.
  unfold gtk_window_get_child, embedded_project, get_window, final.
  cbn [fst snd trace].
  rewrite activated_lookup_window by done.
  rewrite activated_lookup_other by done.
  repeat split. by apply g_object_ref_None.
Qed.

(** C10. Two invocations in a row, for the same application: the second
    creates a window and a header bar of its own, at addresses that were
    free when it started.  The two windows and the two header bars are four
    different objects, all on the heap afterwards: each window is a window
    with its own header bar as title bar, each header bar is a header bar
    installed in its own window, and the second invocation leaves the
    window and the header bar of the first as the first left them. *)
Theorem activate_twice_two_windows :
  let r' := my_application_activate APPLICATION_NAME application (final r) in
  ∃ window header_bar window' header_bar',
    windows_created (trace r) = [window] ∧
    header_bars_created (trace r) = [header_bar] ∧
    windows_created (trace r') = [window'] ∧
    header_bars_created (trace r') = [header_bar'] ∧
    final r !! window' = None ∧ final r !! header_bar' = None ∧
    window ≠ window' ∧ header_bar ≠ header_bar' ∧
    is_window (final r') window = true ∧
    is_window (final r') window' = true ∧
    gtk_window_get_titlebar (final r') window = Some header_bar ∧
    gtk_window_get_titlebar (final r') window' = Some header_bar' ∧
    window ≠ header_bar ∧ window' ≠ header_bar' ∧
    window ≠ header_bar' ∧ header_bar ≠ window' ∧
    get_window (final r') window = get_window (final r) window ∧
    get_header_bar (final r') header_bar = get_header_bar (final r) header_bar ∧
    get_window (final r') window =
      Some (mkWindow (Some application) (Some "FruitNinja"%string) 1280 720
              (Some header_bar) None true) ∧
    get_window (final r') window' =
      Some (mkWindow (Some application) (Some "FruitNinja"%string) 1280 720
              (Some header_bar') None true) ∧
    get_header_bar (final r') header_bar =
      Some (mkHeaderBar (Some "FruitNinja"%string) true true (Some window)) ∧
    get_header_bar (final r') header_bar' =
      Some (mkHeaderBar (Some "FruitNinja"%string) true true (Some window')).
Proof.
  intros r'.
  destruct (activate_spec APPLICATION_NAME application h)
    as (w & b & p & _ & _ & _ & Hwb & _ & _ & Hrun).
  destruct (activate_spec APPLICATION_NAME application (final r))
    as (w' & b' & p' & Hw' & Hb' & _ & Hwb' & _ & _ & Hrun').
  fold r' in Hrun'. fold r in Hrun.
  assert (Hlw : final r !! w = Some (shown_window application b)).
  { rewrite Hrun. unfold final. cbn [fst snd]. by apply activated_lookup_window. }
  assert (Hlb : final r !! b = Some (shown_header_bar w)).
  { rewrite Hrun. unfold final. cbn [fst snd]. by apply activated_lookup_bar. }
  assert (Hww' : w ≠ w') by (intros ->; congruence).
  assert (Hwb'' : w ≠ b') by (intros ->; congruence).
  assert (Hbw' : b ≠ w') by (intros ->; congruence).
  assert (Hbb' : b ≠ b') by (intros ->; congruence).
  assert (Hdw : data <$> final r' !! w = data <$> final r !! w).
  { rewrite Hrun' at 1. unfold final at 1. cbn [fst snd].
    by apply activated_lookup_old. }
  assert (Hdb : data <$> final r' !! b = data <$> final r !! b).
  { rewrite Hrun' at 1. unfold final at 1. cbn [fst snd].
    by apply activated_lookup_old. }
  assert (Hfw' : final r' !! w' = Some (shown_window application b')).
  { rewrite Hrun'. unfold final at 1. cbn [fst snd].
    by apply activated_lookup_window. }
  assert (Hfb' : final r' !! b' = Some (shown_header_bar w')).
  { rewrite Hrun'. unfold final at 1. cbn [fst snd].
    by apply activated_lookup_bar. }
  assert (Hgw : get_window (final r') w = get_window (final r) w)
    by (by apply same_data_get_window).
  assert (Hgb : get_header_bar (final r') b = get_header_bar (final r) b)
    by (by apply same_data_get_header_bar).
  exists w, b, w', b'.
  unfold is_window, gtk_window_get_titlebar. rewrite Hgw, Hgb.
  unfold get_window, get_header_bar. rewrite Hfw', Hfb', Hlw, Hlb.
  split; [by rewrite Hrun|]. split; [by rewrite Hrun|].
  split; [by rewrite Hrun'|]. split; [by rewrite Hrun'|].
  by repeat split.
Qed.

End handler.

(** ** A launch, start to end

    The program's [main] constructs the application on an empty heap and
    runs it, which activates it. *)

Example launch_calls :
  let start := my_application_new "com.example.fruit_ninja" ∅ in
  trace (my_application_activate "fruit_ninja" (result start) (final start)) =
    [call_gtk_application_window_new 1 2;
     call_gtk_header_bar_new 3;
     call_gtk_widget_show 3;
     call_gtk_header_bar_set_title 3 "fruit_ninja";
     call_gtk_header_bar_set_show_title_buttons 3 true;
     call_gtk_window_set_titlebar 2 3;
     call_gtk_window_set_title 2 "FruitNinja";
     call_gtk_window_set_default_size 2 1280 720;
     call_gtk_widget_show 2;
     call_fl_dart_project_new 4;
     call_g_object_unref 4].
Proof. vm_compute. reflexivity. Qed.

Example launch_window :
  let start := my_application_new "com.example.fruit_ninja" ∅ in
  let r := my_application_activate "fruit_ninja" (result start) (final start) in
  get_window (final r) 2 =
    Some (mkWindow (Some 1%positive) (Some "FruitNinja"%string) 1280 720
            (Some 3%positive) None true) ∧
  get_header_bar (final r) 3 =
    Some (mkHeaderBar (Some "FruitNinja"%string) true true (Some 2%positive)) ∧
  (ref_count <$> final r !! 1%positive) = Some 2%nat ∧
  dom (final r) = {[1%positive; 2%positive; 3%positive]}.
Proof. vm_compute. repeat split; reflexivity. Qed.


(** C1 (the code does not do it).  On a launch the handler creates window 2
    and Dart project 4.  When it returns, the window has no child, so no
    Flutter view and no project is embedded in it; the project is off the
    heap; and the one call that was handed the project is the one that
    dropped it. *)
Theorem launch_project_not_attached :
  let start := my_application_new "com.example.fruit_ninja" ∅ in
  let r := my_application_activate "fruit_ninja" (result start) (final start) in
  windows_created (trace r) = [2%positive] ∧
  projects_created (trace r) = [4%positive] ∧
  gtk_window_get_child (final r) 2 = Some None ∧
  embedded_project (final r) 2 = None ∧
  is_dart_project (final r) 4 = false ∧
  List.filter (takes 4) (trace r) = [call_g_object_unref 4].
Proof. vm_compute. repeat split; reflexivity. Qed.

(** * Further properties of the two functions *)

(** ** What an activation leaves alone *)

Section handler_frame.

Variable APPLICATION_NAME : string.
Variable application : positive.
Variable h : heap.

Let r := my_application_activate APPLICATION_NAME application h.


(** X2. When the handler returns, the header bar it created is shown as
    well, not only the window. *)
Theorem activate_header_bar_shown :
  ∃ header_bar,
    header_bars_created (trace r) = [header_bar] ∧
    gtk_widget_get_visible (final r) header_bar = true.
Proof.
  destruct (activate_spec APPLICATION_NAME application h)
    as (w & b & p & _ & _ & _ & _ & _ & _ & Hrun).
  exists b. subst r. rewrite Hrun. split; [reflexivity|].
  unfold gtk_widget_get_visible, final. cbn [fst snd].
  by rewrite activated_lookup_bar.
Qed.

(** X3. What one activation leaves behind is two objects, the window and
    its header bar, each with one reference: the heap has these two
    addresses more than before and no other, the project having come and
    gone. *)
Theorem activate_adds_two_objects :
  ∃ window header_bar,
    windows_created (trace r) = [window] ∧
    header_bars_created (trace r) = [header_bar] ∧
    dom (final r) = {[header_bar]} ∪ ({[window]} ∪ dom h) ∧
    size (final r) = S (S (size h)) ∧
    (ref_count <$> final r !! window) = Some 1%nat ∧
    (ref_count <$> final r !! header_bar) = Some 1%nat.
Proof.
  destruct (activate_spec APPLICATION_NAME application h)
    as (w & b & p & Hw & Hb & _ & Hwb & _ & _ & Hrun).
  exists w, b. subst r. rewrite Hrun. unfold final. cbn [fst snd trace].
  split; [reflexivity|]. split; [reflexivity|].
  split; [by rewrite !dom_insert_L, g_object_ref_dom|].
  split.
  - rewrite activated_size by (done || by apply g_object_ref_None).
    by rewrite g_object_ref_size.
  - by rewrite activated_lookup_window, activated_lookup_bar.
Qed.

(** X4. The window is shown only once it is complete: the handler shows
    the window once; every call that configures the window or the header
    bar comes before that call, and after it the handler makes no call on
    the window or on the header bar. *)
Theorem activate_shows_configured_window :
  ∃ window header_bar before after,
    windows_created (trace r) = [window] ∧
    header_bars_created (trace r) = [header_bar] ∧
    trace r = before ++ call_gtk_widget_show window :: after ∧
    call_gtk_window_set_titlebar window header_bar ∈ before ∧
    call_gtk_window_set_title window "FruitNinja" ∈ before ∧
    call_gtk_window_set_default_size window 1280 720 ∈ before ∧
    call_gtk_widget_show header_bar ∈ before ∧
    call_gtk_header_bar_set_title header_bar APPLICATION_NAME ∈ before ∧
    call_gtk_header_bar_set_show_title_buttons header_bar true ∈ before ∧
    Forall (λ c, takes window c = false ∧ takes header_bar c = false) after ∧
    call_gtk_widget_show window ∉ before.
Proof.
  destruct (activate_spec APPLICATION_NAME application h)
    as (w & b & p & _ & _ & _ & Hwb & Hpw & Hpb & Hrun).
  exists w, b. eexists [_; _; _; _; _; _; _; _], _.
  subst r. rewrite Hrun. cbn [trace snd].
  split; [reflexivity|]. split; [reflexivity|]. split; [reflexivity|].
  repeat (split; [set_solver|]).
  split.
  - repeat constructor; cbn [takes]; by apply bool_decide_eq_false.
  - intros Hin. repeat (apply elem_of_cons in Hin as [Heq | Hin];
      [discriminate Heq || (injection Heq as Heq; by apply Hwb) |]).
    by apply elem_of_nil in Hin.
Qed.

(** X5. The handler hands to the toolkit only the application and the
    objects it created itself: an object that existed before the call and is
    not the application is the argument of none of the handler's calls. *)
Theorem activate_touches_only_its_objects (q : positive) :
  is_Some (h !! q) → q ≠ application →
  Forall (λ c, takes q c = false) (trace r).
Proof.
  intros Hq Hqa.
  destruct (activate_spec APPLICATION_NAME application h)
    as (w & b & p & Hw & Hb & Hp & _ & _ & _ & Hrun).
  assert (w ≠ q) by (intros ->; rewrite Hw in Hq; by destruct Hq).
  assert (b ≠ q) by (intros ->; rewrite Hb in Hq; by destruct Hq).
  assert (p ≠ q) by (intros ->; rewrite Hp in Hq; by destruct Hq).
  subst r. rewrite Hrun. cbn [trace snd].
  repeat constructor; cbn [takes orb];
    rewrite ?bool_decide_eq_false_2 by congruence; done.
Qed.

End handler_frame.

Lemma activate_touches_only_its_objects_witness :
  let h0 : heap :=
    <[1%positive := mkObject 1 (MyApplication (mkApplication None 4))]>
      (<[2%positive := mkObject 1 FlDartProject]> ∅) in
  Forall (λ c, takes 2 c = false)
    (trace (my_application_activate "fruit_ninja" 1 h0)).
Proof.
  intros h0. apply (activate_touches_only_its_objects "fruit_ninja" 1 h0 2).
  - exists (mkObject 1 FlDartProject). vm_compute. reflexivity.
  - discriminate.
Defined.

(** ** Constructor and handler together *)

(** Two constructor calls, one after the other. *)
Lemma my_application_new_run APPLICATION_ID (h : heap) :
  my_application_new APPLICATION_ID h =
    (fresh (dom h),
     <[fresh (dom h) :=
         mkObject 1 (MyApplication
                       (mkApplication (Some APPLICATION_ID)
                          G_APPLICATION_HANDLES_OPEN))]> h,
     [call_g_object_new MY_TYPE_APPLICATION
        [("application-id"%string, VString APPLICATION_ID);
         ("flags"%string, VFlags G_APPLICATION_HANDLES_OPEN)]
        (fresh (dom h))]).
Proof. reflexivity. Qed.

(** X6. The constructor keeps no instance of its own: called twice, it
    returns two different instances, both with the identifier and the
    open-handling flag, and the second call leaves the first instance as it
    was. *)
Theorem my_application_new_twice APPLICATION_ID (h : heap) :
  let r1 := my_application_new APPLICATION_ID h in
  let r2 := my_application_new APPLICATION_ID (final r1) in
  result r1 ≠ result r2 ∧
  get_application (final r2) (result r1) =
    Some (mkApplication (Some APPLICATION_ID) G_APPLICATION_HANDLES_OPEN) ∧
  get_application (final r2) (result r2) =
    Some (mkApplication (Some APPLICATION_ID) G_APPLICATION_HANDLES_OPEN) ∧
  final r2 !! result r1 = final r1 !! result r1.
Proof.
  intros r1 r2. subst r2. rewrite (my_application_new_run _ (final r1)).
  subst r1. rewrite my_application_new_run.
  unfold result, final, get_application. cbn [fst snd].
  set (a := fresh (dom h)).
  set (h1 := <[a := _]> h).
  assert (Hne : a ≠ fresh (dom h1)).
  { intros Heq. apply (is_fresh (dom h1)). rewrite <- Heq.
    subst h1. rewrite dom_insert_L. set_solver. }
  split; [exact Hne|].
  rewrite lookup_insert_eq, lookup_insert_ne by done.
  subst h1. by rewrite lookup_insert_eq.
Qed.

(** X7. A launch: the application is constructed and then activated.  The
    window belongs to the application the constructor returned, is another
    object than the application, and the handler leaves the application
    with its identifier and its flags. *)
Theorem launch_window_of_application APPLICATION_ID APPLICATION_NAME (h : heap) :
  let start := my_application_new APPLICATION_ID h in
  let r := my_application_activate APPLICATION_NAME (result start) (final start) in
  ∃ window,
    windows_created (trace r) = [window] ∧
    window ≠ result start ∧
    gtk_window_get_application (final r) window = Some (result start) ∧
    get_application (final r) (result start) =
      Some (mkApplication (Some APPLICATION_ID) G_APPLICATION_HANDLES_OPEN).
Proof.
  intros start r.
  destruct (activate_spec APPLICATION_NAME (result start) (final start))
    as (w & b & p & Hw & Hb & _ & Hwb & _ & _ & Hrun).
  fold r in Hrun.
  assert (Happ : final start !! result start =
                 Some (mkObject 1 (MyApplication
                                     (mkApplication (Some APPLICATION_ID)
                                        G_APPLICATION_HANDLES_OPEN)))).
  { subst start. rewrite my_application_new_run.
    unfold final, result. cbn [fst snd]. apply lookup_insert_eq. }
  assert (Hwa : w ≠ result start) by (intros ->; congruence).
  assert (Hba : b ≠ result start) by (intros ->; congruence).
  assert (Hfw : final r !! w = Some (shown_window (result start) b)).
  { rewrite Hrun. unfold final at 1. cbn [fst snd].
    by apply activated_lookup_window. }
  assert (Hfa : data <$> final r !! result start =
                data <$> final start !! result start).
  { rewrite Hrun. unfold final at 1. cbn [fst snd].
    by apply activated_lookup_old. }
  exists w.
  rewrite (same_data_get_application _ _ _ Hfa).
  unfold gtk_window_get_application, get_window, get_application.
  rewrite Hfw, Happ. split; [by rewrite Hrun|]. by repeat split.
Qed.

(** ** Repeated activation *)

Lemma activations_S APPLICATION_NAME application n (h : heap) :
  let r1 := my_application_activate APPLICATION_NAME application h in
  let r2 := activations APPLICATION_NAME application n (final r1) in
  final (activations APPLICATION_NAME application (S n) h) = final r2 ∧
  trace (activations APPLICATION_NAME application (S n) h) = trace r1 ++ trace r2.
Proof.
  cbn [activations]. unfold bind, final, trace.
  destruct (my_application_activate APPLICATION_NAME application h)
    as [[[] h1] l1].
  cbn [fst snd].
  by destruct (activations APPLICATION_NAME application n h1) as [[[] h2] l2].
Qed.

(** Objects outlive any number of activations, with their data. *)
Lemma activations_preserve_data APPLICATION_NAME application n (h : heap) q :
  is_Some (h !! q) →
  data <$> final (activations APPLICATION_NAME application n h) !! q =
    data <$> h !! q.
Proof.
  revert h. induction n as [|n IH]; intros h Hq.
  - reflexivity.
  - destruct (activations_S APPLICATION_NAME application n h) as [-> _].
    destruct (activate_spec APPLICATION_NAME application h)
      as (w & b & p & Hw & Hb & _ & Hwb & _ & _ & Hrun).
    assert (Hstep : data <$>
              final (my_application_activate APPLICATION_NAME application h) !! q =
              data <$> h !! q).
    { rewrite Hrun. unfold final. cbn [fst snd].
      by apply activated_lookup_old. }
    rewrite IH; [exact Hstep|].
    destruct Hq as [o Ho]. rewrite Ho in Hstep.
    destruct (final (my_application_activate APPLICATION_NAME application h) !! q);
      [done | discriminate].
Qed.

(** X8. The handler does not look for a window of an earlier activation:
    [n] activations in a row create [n] windows at [n] different addresses,
    none of which was an object before the first; afterwards each of them is
    still on the heap, shown, with title "FruitNinja" and default size
    1280 x 720, and the heap holds [2 * n] objects more than at the start. *)
Theorem activations_windows APPLICATION_NAME application n (h : heap) :
  let r := activations APPLICATION_NAME application n h in
  length (windows_created (trace r)) = n ∧
  NoDup (windows_created (trace r)) ∧
  Forall (λ w, h !! w = None ∧
               gtk_window_get_title (final r) w = Some "FruitNinja"%string ∧
               gtk_window_get_default_size (final r) w = Some (1280, 720) ∧
               gtk_widget_get_visible (final r) w = true)
         (windows_created (trace r)) ∧
  size (final r) = (size h + 2 * n)%nat.
Proof.
  cbv zeta. revert h. induction n as [|n IH]; intros h.
  - cbn. repeat split; [constructor | constructor | lia].
  - destruct (activations_S APPLICATION_NAME application n h) as [Hfin Htr].
    cbv zeta in Hfin, Htr. rewrite Hfin, Htr. clear Hfin Htr.
    destruct (activate_spec APPLICATION_NAME application h)
      as (w & b & p & Hw & Hb & _ & Hwb & _ & _ & Hrun).
    set (r1 := my_application_activate APPLICATION_NAME application h) in *.
    assert (Hold : ∀ q, is_Some (h !! q) → is_Some (final r1 !! q)).
    { intros q Hq.
      assert (Hd : data <$> final r1 !! q = data <$> h !! q).
      { rewrite Hrun. unfold final. cbn [fst snd].
        by apply activated_lookup_old. }
      destruct Hq as [o Ho]. rewrite Ho in Hd.
      destruct (final r1 !! q); [done | discriminate]. }
    assert (Hsize : size (final r1) = S (S (size h))).
    { rewrite Hrun. unfold final. cbn [fst snd].
      rewrite activated_size by (done || by apply g_object_ref_None).
      by rewrite g_object_ref_size. }
    specialize (IH (final r1)) as (Hlen & Hnd & Hall & Hsz).
    assert (Hcr : windows_created (trace r1) = [w]) by (by rewrite Hrun).
    assert (Hlw : final r1 !! w = Some (shown_window application b)).
    { rewrite Hrun. unfold final. cbn [fst snd].
      by apply activated_lookup_window. }
    pose proof (activations_preserve_data APPLICATION_NAME application n
                  (final r1) w) as Hdw.
    rewrite Hlw in Hdw. specialize (Hdw ltac:(done)).
    set (r2 := activations APPLICATION_NAME application n (final r1)) in *.
    unfold windows_created in *. rewrite omap_app, Hcr. cbn [app length].
    split; [by rewrite Hlen|]. split.
    + constructor; [|exact Hnd].
      intros Hin. rewrite Forall_forall in Hall.
      destruct (Hall w Hin) as [Hnone _]. congruence.
    + split.
      * constructor.
        -- split; [exact Hw|].
           unfold gtk_window_get_title, gtk_window_get_default_size,
             gtk_widget_get_visible, get_window.
           destruct (final r2 !! w) as [[n0 d0]|]; [|discriminate].
           cbn in Hdw. injection Hdw as ->. done.
        -- eapply Forall_impl; [exact Hall|].
           intros x (Hx & Ht & Hd & Hv). repeat split; try done.
           destruct (h !! x) as [o|] eqn:Hhx; [|done].
           destruct (Hold x) as [o' Ho']; [by rewrite Hhx | congruence].
      * rewrite Hsz, Hsize. lia.
Qed.
